(** * create-test-audio.py: sine-wave test tone written as a WAV file

    A shallow embedding of [create_test_audio] (src/create-test-audio.py) and
    of the parts of Python's [struct] and [wave] modules it calls, followed by
    the properties of the generated sample sequence and of the written file.

    Numbers.  Python [int]s are [Z].  The parameters [duration] and
    [frequency] may be ints or floats; both are modelled by the rational
    number they denote ([Q]).  Float arithmetic is modelled by exact
    arithmetic: products of rationals in [Q], and everything that goes
    through [math.sin] in [R].  Rounding of binary64 operations, overflow to
    infinity and memory limits are outside the model. *)

From Stdlib Require Import ZArith QArith Qround Qreals Reals Lra Lia List Bool.
From Stdlib Require Import DecimalString.
From Stdlib Require String.
From coqutil Require Import Byte Word.LittleEndianList.
Import ListNotations.

Local Open Scope Z_scope.

(** ** Python built-ins used by the script *)

Module Py.

(** The exceptions that the modelled code can raise. *)
Inductive exn : Set :=
| ZeroDivisionError   (* [x / 0], [x % 0] *)
| StructError         (* [struct.error]: a value does not fit its format *)
| WaveError           (* [wave.Error] *)
| EOFError.           (* a read past the end of the data *)

Inductive result (A : Type) : Type :=
| Ok (a : A)
| Raise (e : exn).
Arguments Ok {A} a.
Arguments Raise {A} e.

Definition bind {A B} (m : result A) (k : A -> result B) : result B :=
  match m with
  | Ok a => k a
  | Raise e => Raise e
  end.

(** [int(x)] on a number: truncation toward zero. *)
Definition int_of_Q (q : Q) : Z := Z.quot (Qnum q) (Z.pos (Qden q)).

Definition int_of_R (x : R) : Z :=
  if Rle_dec 0 x then Int_part x else - Int_part (- x).

(** [round(x)]: nearest integer, ties to the even one. *)
Definition round_of_Q (q : Q) : Z :=
  let lo := Qfloor q in
  match Qcompare (q - inject_Z lo) (1 # 2) with
  | Lt => lo
  | Gt => lo + 1
  | Eq => if Z.even lo then lo else lo + 1
  end.


(** [a // b] and [a % b] on ints: floor division, remainder with the sign
    of the divisor. *)
Definition floordiv (a b : Z) : result Z :=
  if b =? 0 then Raise ZeroDivisionError else Ok (a / b).

Definition mod_ (a b : Z) : result Z :=
  if b =? 0 then Raise ZeroDivisionError else Ok (a mod b).

(** [float(a) / b] with [b] an int. *)
Definition truediv (a b : Z) : result R :=
  if b =? 0 then Raise ZeroDivisionError else Ok (IZR a / IZR b)%R.

(** [range(n)]: 0, 1, ..., n-1; empty when [n <= 0]. *)
Definition range (n : Z) : list Z := map Z.of_nat (seq 0 (Z.to_nat n)).

(** [for i in l: st = body(st, i)], stopping at the first exception. *)
Fixpoint for_each {S : Type} (body : S -> Z -> result S) (st : S) (l : list Z)
  : result S :=
  match l with
  | [] => Ok st
  | i :: l' => bind (body st i) (fun st' => for_each body st' l')
  end.

End Py.

Import Py.

Declare Scope py_scope.
Delimit Scope py_scope with py.
Notation "x <- m ;; k" := (bind m (fun x => k))
  (at level 61, m at next level, right associativity) : py_scope.
Local Open Scope py_scope.

(** ** The signal generator (lines 15-31 of the script) *)

Module Generator.

(** The variables the loop updates. *)
Record loop_state : Type := mk_state {
  frequency : Q;
  samples : list Z
}.

(** Line 27: [frequency = 440 if frequency == 440 else 523]. *)
Definition next_frequency (frequency : Q) : Q :=
  if Qeq_bool frequency 440 then 440%Q else 523%Q.

(** Line 23: [math.sin(2 * math.pi * frequency * time) * 0.3]. *)
Definition amplitude (frequency : Q) (time : R) : R :=
  (sin (2 * PI * Q2R frequency * time) * (3 / 10))%R.

(** One iteration of the loop of line 20, lines 22-31. *)
Definition loop_body (sample_rate : Z) (st : loop_state) (i : Z)
  : result loop_state :=
  time <- truediv i sample_rate ;;
  let sample := amplitude (frequency st) time in
  half <- floordiv sample_rate 2 ;;
  r <- mod_ i half ;;
  let frequency' :=
    if r =? 0 then next_frequency (frequency st) else frequency st in
  let sample_int := int_of_R (sample * 32767) in
  Ok (mk_state frequency' (samples st ++ [sample_int])).

(** Line 16: [num_samples = int(duration * sample_rate)]. *)
Definition num_samples (duration : Q) (sample_rate : Z) : Z :=
  int_of_Q (duration * inject_Z sample_rate).

(** The loop run over a given list of indices from a given state. *)
Definition run_loop (sample_rate : Z) (st : loop_state) (l : list Z)
  : result loop_state :=
  for_each (loop_body sample_rate) st l.

(** Lines 16-31: the list [samples] when the loop is left. *)
Definition generate_samples (duration frequency : Q) (sample_rate : Z)
  : result (list Z) :=
  st <- run_loop sample_rate (mk_state frequency [])
          (range (num_samples duration sample_rate)) ;;
  Ok (samples st).

(** The value of the variable [frequency] when iteration [i] starts, that
    is, the frequency that the sample of index [i] is computed with. *)
Definition active_frequency (frequency0 : Q) (sample_rate : Z) (i : Z)
  : result Q :=
  st <- run_loop sample_rate (mk_state frequency0 []) (range i) ;;
  Ok (frequency st).

End Generator.

Import Generator.

(** ** [struct]: little-endian standard-size formats

    [struct.pack] checks every integer against the range of its format code
    and raises [struct.error] outside it; nothing is wrapped or clamped. *)

Module Struct.

(** An unsigned field of [n] bytes: codes [H] (2 bytes) and [L] (4 bytes). *)
Definition pack_unsigned (n : nat) (v : Z) : result (list byte) :=
  if (0 <=? v) && (v <? 2 ^ (8 * Z.of_nat n))
  then Ok (le_split n v) else Raise StructError.

Definition pack_H : Z -> result (list byte) := pack_unsigned 2.
Definition pack_L : Z -> result (list byte) := pack_unsigned 4.

(** Code [h]: a signed 16-bit field, two's complement. *)
Definition pack_h (v : Z) : result (list byte) :=
  if (-32768 <=? v) && (v <=? 32767)
  then Ok (le_split 2 v) else Raise StructError.

(** [struct.pack('<' + 'h' * len(vs), *vs)]. *)
Fixpoint pack_hs (vs : list Z) : result (list byte) :=
  match vs with
  | [] => Ok []
  | v :: vs' =>
      b <- pack_h v ;;
      bs <- pack_hs vs' ;;
      Ok (b ++ bs)
  end.

(** Fields one after the other, as in a format string with several codes. *)
Fixpoint pack_all (fields : list (result (list byte))) : result (list byte) :=
  match fields with
  | [] => Ok []
  | f :: fields' =>
      b <- f ;;
      bs <- pack_all fields' ;;
      Ok (b ++ bs)
  end.

(** [struct.unpack_from] of one unsigned field of [n] bytes at the start of
    the buffer; [struct.error] when the buffer is shorter. *)
Definition unpack_unsigned (n : nat) (buf : list byte) : result Z :=
  if (length buf <? n)%nat then Raise StructError
  else Ok (le_combine (firstn n buf)).

(** Code [h] read back: the unsigned value, reinterpreted as signed. *)
Definition unpack_h (buf : list byte) : result Z :=
  u <- unpack_unsigned 2 buf ;;
  Ok (if u <? 32768 then u else u - 65536).

(** All the [h] fields of a buffer, two bytes at a time. *)
Fixpoint unpack_hs (n : nat) (buf : list byte) : result (list Z) :=
  match n with
  | O => Ok []
  | S n' =>
      v <- unpack_h buf ;;
      vs <- unpack_hs n' (skipn 2 buf) ;;
      Ok (v :: vs)
  end.

End Struct.

Import Struct.

(** ** [wave]: the RIFF/WAVE writer and reader *)

Module Wave.

(** The four-character tags [b'RIFF'], [b'WAVE'], [b'fmt '], [b'data']. *)
Definition RIFF : list byte := [Byte.x52; Byte.x49; Byte.x46; Byte.x46].
Definition WAVE : list byte := [Byte.x57; Byte.x41; Byte.x56; Byte.x45].
Definition fmt_ : list byte := [Byte.x66; Byte.x6d; Byte.x74; Byte.x20].
Definition data : list byte := [Byte.x64; Byte.x61; Byte.x74; Byte.x61].

Definition WAVE_FORMAT_PCM : Z := 1.

(** *** [Wave_write] *)

(** The attributes of a [Wave_write] object; [file] is the content of the
    file it writes to, whose position is always the end except inside
    [patchheader]. *)
Record Wave_write : Type := mk_writer {
  file : list byte;
  nchannels : Z;
  sampwidth : Z;
  framerate : Z;
  nframes : Z;
  nframeswritten : Z;
  datawritten : Z;
  datalength : Z;
  headerwritten : bool;
  form_length_pos : nat;
  data_length_pos : nat
}.

(** [initfp]. *)
Definition initfp : Wave_write :=
  mk_writer [] 0 0 0 0 0 0 0 false 0 0.

(** A method: it reads and updates the object and returns or raises. The
    object is kept in both cases (what was written stays written). *)
Definition method (A : Type) : Type := Wave_write -> result A * Wave_write.

Definition ret {A} (a : A) : method A := fun w => (Ok a, w).
Definition raise {A} (e : exn) : method A := fun w => (Raise e, w).
Definition mbind {A B} (m : method A) (k : A -> method B) : method B :=
  fun w =>
    match m w with
    | (Ok a, w') => k a w'
    | (Raise e, w') => (Raise e, w')
    end.
Definition get : method Wave_write := fun w => (Ok w, w).
Definition put (w : Wave_write) : method unit := fun _ => (Ok tt, w).
Definition lift {A} (r : result A) : method A := fun w => (r, w).
Definition when (b : bool) (m : method unit) : method unit :=
  if b then m else ret tt.

Definition modify (f : Wave_write -> Wave_write) : method unit :=
  fun w => (Ok tt, f w).

(** Attribute assignments [self._x = v]. *)
Definition set_file v (w : Wave_write) : Wave_write :=
  mk_writer v (nchannels w) (sampwidth w) (framerate w) (nframes w) (nframeswritten w) (datawritten w) (datalength w) (headerwritten w) (form_length_pos w) (data_length_pos w).
Definition set_nchannels v (w : Wave_write) : Wave_write :=
  mk_writer (file w) v (sampwidth w) (framerate w) (nframes w) (nframeswritten w) (datawritten w) (datalength w) (headerwritten w) (form_length_pos w) (data_length_pos w).
Definition set_sampwidth v (w : Wave_write) : Wave_write :=
  mk_writer (file w) (nchannels w) v (framerate w) (nframes w) (nframeswritten w) (datawritten w) (datalength w) (headerwritten w) (form_length_pos w) (data_length_pos w).
Definition set_framerate v (w : Wave_write) : Wave_write :=
  mk_writer (file w) (nchannels w) (sampwidth w) v (nframes w) (nframeswritten w) (datawritten w) (datalength w) (headerwritten w) (form_length_pos w) (data_length_pos w).
Definition set_nframes v (w : Wave_write) : Wave_write :=
  mk_writer (file w) (nchannels w) (sampwidth w) (framerate w) v (nframeswritten w) (datawritten w) (datalength w) (headerwritten w) (form_length_pos w) (data_length_pos w).
Definition set_nframeswritten v (w : Wave_write) : Wave_write :=
  mk_writer (file w) (nchannels w) (sampwidth w) (framerate w) (nframes w) v (datawritten w) (datalength w) (headerwritten w) (form_length_pos w) (data_length_pos w).
Definition set_datawritten v (w : Wave_write) : Wave_write :=
  mk_writer (file w) (nchannels w) (sampwidth w) (framerate w) (nframes w) (nframeswritten w) v (datalength w) (headerwritten w) (form_length_pos w) (data_length_pos w).
Definition set_datalength v (w : Wave_write) : Wave_write :=
  mk_writer (file w) (nchannels w) (sampwidth w) (framerate w) (nframes w) (nframeswritten w) (datawritten w) v (headerwritten w) (form_length_pos w) (data_length_pos w).
Definition set_headerwritten v (w : Wave_write) : Wave_write :=
  mk_writer (file w) (nchannels w) (sampwidth w) (framerate w) (nframes w) (nframeswritten w) (datawritten w) (datalength w) v (form_length_pos w) (data_length_pos w).
Definition set_form_length_pos v (w : Wave_write) : Wave_write :=
  mk_writer (file w) (nchannels w) (sampwidth w) (framerate w) (nframes w) (nframeswritten w) (datawritten w) (datalength w) (headerwritten w) v (data_length_pos w).
Definition set_data_length_pos v (w : Wave_write) : Wave_write :=
  mk_writer (file w) (nchannels w) (sampwidth w) (framerate w) (nframes w) (nframeswritten w) (datawritten w) (datalength w) (headerwritten w) (form_length_pos w) v.

Declare Scope wave_scope.
Delimit Scope wave_scope with wave.
Notation "x <- m ;; k" := (mbind m (fun x => k))
  (at level 61, m at next level, right associativity) : wave_scope.
Notation "m ;; k" := (mbind m (fun _ => k))
  (at level 61, right associativity) : wave_scope.
Local Open Scope wave_scope.

(** [self._file.write(b)] at the end of the file, [self._file.tell()], and
    a write of [b] at position [pos] (seek, write, seek back). *)
Definition file_write (b : list byte) : method unit :=
  modify (fun w => set_file (file w ++ b) w).

Definition file_tell : method nat :=
  fun w => (Ok (length (file w)), w).

Definition file_write_at (pos : nat) (b : list byte) : method unit :=
  modify (fun w =>
    set_file (firstn pos (file w) ++ b ++ skipn (pos + length b) (file w)) w).

Definition setnchannels (n : Z) : method unit :=
  w <- get ;;
  if negb (datawritten w =? 0) then raise WaveError
  else if n <? 1 then raise WaveError
  else put (set_nchannels n w).

Definition setsampwidth (n : Z) : method unit :=
  w <- get ;;
  if negb (datawritten w =? 0) then raise WaveError
  else if (n <? 1) || (4 <? n) then raise WaveError
  else put (set_sampwidth n w).

(** [framerate] is an int here, so [int(round(framerate))] is [framerate]. *)
Definition setframerate (n : Z) : method unit :=
  w <- get ;;
  if negb (datawritten w =? 0) then raise WaveError
  else if n <=? 0 then raise WaveError
  else put (set_framerate n w).

(** [_write_header]: the 44 bytes before the sample data. *)
Definition write_header (initlength : Z) : method unit :=
  file_write RIFF ;;
  w <- get ;;
  when (nframes w =? 0)
    (n <- lift (floordiv initlength (nchannels w * sampwidth w)) ;;
     modify (set_nframes n)) ;;
  modify (fun w => set_datalength (nframes w * nchannels w * sampwidth w) w) ;;
  pos <- file_tell ;;
  modify (set_form_length_pos pos) ;;
  w <- get ;;
  hdr <- lift (pack_all
    [ pack_L (36 + datalength w); Ok WAVE; Ok fmt_; pack_L 16;
      pack_H WAVE_FORMAT_PCM; pack_H (nchannels w); pack_L (framerate w);
      pack_L (nchannels w * framerate w * sampwidth w);
      pack_H (nchannels w * sampwidth w); pack_H (sampwidth w * 8);
      Ok data ]) ;;
  file_write hdr ;;
  pos <- file_tell ;;
  modify (set_data_length_pos pos) ;;
  len <- lift (pack_L (datalength w)) ;;
  file_write len ;;
  modify (set_headerwritten true).

Definition ensure_header_written (datasize : Z) : method unit :=
  w <- get ;;
  if headerwritten w then ret tt
  else if nchannels w =? 0 then raise WaveError
  else if sampwidth w =? 0 then raise WaveError
  else if framerate w =? 0 then raise WaveError
  else write_header datasize.

(** [_patchheader]: the two length fields rewritten in place when the
    header announced another data length than was written. *)
Definition patchheader : method unit :=
  w <- get ;;
  if datawritten w =? datalength w then ret tt
  else
    form <- lift (pack_L (36 + datawritten w)) ;;
    file_write_at (form_length_pos w) form ;;
    len <- lift (pack_L (datawritten w)) ;;
    file_write_at (data_length_pos w) len ;;
    modify (set_datalength (datawritten w)).

(** [writeframesraw] on a little-endian host (no byte swap). *)
Definition writeframesraw (d : list byte) : method unit :=
  ensure_header_written (Z.of_nat (length d)) ;;
  w <- get ;;
  n <- lift (floordiv (Z.of_nat (length d)) (sampwidth w * nchannels w)) ;;
  file_write d ;;
  modify (fun w =>
    set_nframeswritten (nframeswritten w + n)
      (set_datawritten (datawritten w + Z.of_nat (length d)) w)).

Definition writeframes (d : list byte) : method unit :=
  writeframesraw d ;;
  w <- get ;;
  when (negb (datalength w =? datawritten w)) patchheader.

Definition close : method unit :=
  ensure_header_written 0 ;;
  w <- get ;;
  when (negb (datalength w =? datawritten w)) patchheader.

(** What is left of [with wave.open(filename, 'wb') as wav_file: body]: the
    file, and the exception that leaves the statement, if any.  The file is
    opened (here: always successfully) and truncated, [body] runs, and
    [__exit__] calls [close] whether or not [body] raised; an exception
    raised by [close] is the one that propagates. *)
Inductive outcome : Type :=
| Written (content : list byte)
| Failed (e : exn) (content : list byte).

Definition with_open (body : method unit) : outcome :=
  let (r, w) := body initfp in
  let (rc, w') := close w in
  match rc, r with
  | Raise e, _ => Failed e (file w')
  | Ok _, Raise e => Failed e (file w')
  | Ok _, Ok _ => Written (file w')
  end.

(** *** [Wave_read] *)

Fixpoint bytes_eqb (a b : list byte) : bool :=
  match a, b with
  | [], [] => true
  | x :: a', y :: b' => Byte.eqb x y && bytes_eqb a' b'
  | _, _ => false
  end.

(** [Chunk(f, bigendian=0)]: the name, the size and what follows them. *)
Definition chunk_open (buf : list byte) : result (list byte * Z * list byte) :=
  if (length buf <? 4)%nat then Raise EOFError
  else
    match unpack_unsigned 4 (skipn 4 buf) with
    | Ok size => Ok (firstn 4 buf, size, skipn 8 buf)
    | Raise _ => Raise EOFError
    end.

(** [_read_fmt_chunk] on the content of the chunk: the channel count, the
    frame rate and the sample width in bytes. *)
Definition read_fmt_chunk (content : list byte) : result (Z * Z * Z) :=
  if (length (firstn 14 content) <? 14)%nat then Raise EOFError
  else
    let wFormatTag := le_combine (firstn 2 content) in
    let nch := le_combine (firstn 2 (skipn 2 content)) in
    let rate := le_combine (firstn 4 (skipn 4 content)) in
    if wFormatTag =? WAVE_FORMAT_PCM then
      match unpack_unsigned 2 (skipn 14 content) with
      | Raise _ => Raise EOFError
      | Ok bits =>
          let width := (bits + 7) / 8 in
          if width =? 0 then Raise WaveError
          else if nch =? 0 then Raise WaveError
          else Ok (nch, rate, width)
      end
    else Raise WaveError.

(** What the getters of a [Wave_read] return, and the frames it reads. *)
Record Wave_read : Type := mk_reader {
  getnchannels : Z;
  getsampwidth : Z;
  getframerate : Z;
  getnframes : Z;
  frames : list byte
}.

(** The loop of [Wave_read.initfp] over the chunks in [buf]; every chunk
    takes at least its 8 bytes of header, so [length buf] rounds suffice. *)
Fixpoint read_chunks (fuel : nat) (buf : list byte) (fmt : option (Z * Z * Z))
  : result Wave_read :=
  match fuel with
  | O => Raise WaveError
  | S fuel' =>
      match chunk_open buf with
      | Raise _ => Raise WaveError
      | Ok (name, size, rest) =>
          let content := firstn (Z.to_nat size) rest in
          let next := skipn (Z.to_nat (size + size mod 2)) rest in
          if bytes_eqb name fmt_ then
            bind (read_fmt_chunk content)
                 (fun f => read_chunks fuel' next (Some f))
          else if bytes_eqb name data then
            match fmt with
            | None => Raise WaveError
            | Some (nch, rate, width) =>
                Ok (mk_reader nch width rate (size / (nch * width)) content)
            end
          else read_chunks fuel' next fmt
      end
  end.

(** [wave.open(f, 'rb')] on a file with the given content. *)
Definition open_read (content : list byte) : result Wave_read :=
  match chunk_open content with
  | Raise e => Raise e
  | Ok (name, size, rest) =>
      if negb (bytes_eqb name RIFF) then Raise WaveError
      else
        let riff := firstn (Z.to_nat size) rest in
        if negb (bytes_eqb (firstn 4 riff) WAVE) then Raise WaveError
        else read_chunks (S (length riff)) (skipn 4 riff) None
  end.

End Wave.

Import Wave.

(** ** The script: lines 12-41 *)

Module Script.

(** Lines 34-41: the [with] statement. *)
Definition write_wav (sample_rate : Z) (samples : list Z) : outcome :=
  with_open
    (setnchannels 1 ;;
     setsampwidth 2 ;;
     setframerate sample_rate ;;
     packed_samples <- lift (pack_hs samples) ;;
     writeframes packed_samples)%wave.

(** [create_test_audio(filename, duration, frequency, sample_rate)]: the
    exception raised before the file is opened, or what the [with]
    statement leaves. *)
Definition create_test_audio (duration frequency : Q) (sample_rate : Z)
  : result outcome :=
  samples <- generate_samples duration frequency sample_rate ;;
  Ok (write_wav sample_rate samples).

End Script.

Import Script.

(** ** The script with its console output: lines 12-51

    The four [print] calls of [create_test_audio] run after the [with]
    statement, and the last one reads [packed_samples], a variable bound
    inside it.  The duration is an int here, as in the script's own call:
    an f-string prints an int in decimal, a float by [repr], which is
    outside the model. *)

Module Console.

Import String.
Local Open Scope string_scope.

(** [str(n)] of an int, as an f-string interpolates it. *)
Definition str_int (n : Z) : string := NilZero.string_of_int (Z.to_int n).

(** How a [with wave.open(...)] statement is left when its body binds a
    variable that is read afterwards: normally, with the file closed and
    the variable bound, or by an exception. *)
Inductive completion (A : Type) : Type :=
| Completed (content : list byte) (a : A)
| Aborted (e : exn) (content : list byte).
Arguments Completed {A} content a.
Arguments Aborted {A} e content.

Definition with_open_binding {A : Type} (body : method A) : completion A :=
  let (r, w) := body initfp in
  let (rc, w') := close w in
  match rc, r with
  | Raise e, _ => Aborted e (file w')
  | Ok _, Raise e => Aborted e (file w')
  | Ok _, Ok a => Completed (file w') a
  end.

(** Lines 34-41, with [packed_samples] kept for line 46. *)
Definition write_wav_binding (sample_rate : Z) (samples : list Z)
  : completion (list byte) :=
  with_open_binding
    (setnchannels 1 ;;
     setsampwidth 2 ;;
     setframerate sample_rate ;;
     packed_samples <- lift (pack_hs samples) ;;
     writeframes packed_samples ;;
     ret packed_samples)%wave.

(** One run: the exception that ends it, if any; the content of the file at
    [filename] if the file was opened; the lines printed. *)
Record run : Type := mk_run {
  exception : option exn;
  file_left : option (list byte);
  stdout : list string
}.

(** [create_test_audio(filename, duration, frequency, sample_rate)]. *)
Definition create_test_audio_run (filename : string) (duration : Z)
  (frequency : Q) (sample_rate : Z) : run :=
  match generate_samples (inject_Z duration) frequency sample_rate with
  | Raise e => mk_run (Some e) None []
  | Ok samples =>
      match write_wav_binding sample_rate samples with
      | Aborted e content => mk_run (Some e) (Some content) []
      | Completed content packed_samples =>
          mk_run None (Some content)
            [ "Created test audio file: " ++ filename;
              "Duration: " ++ str_int duration ++ " seconds";
              "Sample rate: " ++ str_int sample_rate ++ " Hz";
              "File size: "
                ++ str_int (Z.of_nat (List.length packed_samples)) ++ " bytes" ]
      end
  end.

(** A [print(line)] that follows a call: reached only if the call returned. *)
Definition then_print (r : run) (line : string) : run :=
  match exception r with
  | Some _ => r
  | None => mk_run None (file_left r) (stdout r ++ [line])%list
  end.

(** Lines 48-51: the script run as a program. *)
Definition main : run :=
  then_print
    (create_test_audio_run "public/sample-track.mp3" 60 440 44100)
    "Test audio file created successfully!".

End Console.

Import Console.

(** * Vocabulary of the statements

    The loop threads [frequency] through its iterations; [frequency_at] and
    [sample_at] give, without running the loop, the frequency in force at an
    index and the sample stored for it, and [run_loop_nrange] proves that the
    loop computes them.  [header] and [payload] are the two parts of a
    written file. *)

Definition frequency_at (frequency0 : Q) (i : Z) : Q :=
  if i <=? 0 then frequency0 else next_frequency frequency0.

(** The toggle as the specification words it: from 440 to 523, from
    anything else to 440.  Line 27 is [next_frequency]. *)
Definition spec_next_frequency (frequency : Q) : Q :=
  if Qeq_bool frequency 440 then 523%Q else 440%Q.

Definition sample_at (frequency : Q) (sample_rate i : Z) : Z :=
  int_of_R (amplitude frequency (IZR i / IZR sample_rate) * 32767).

Definition nrange (n : nat) : list Z := map Z.of_nat (seq 0 n).

(** The bytes of the header that [write_header] produces for a mono 16-bit
    stream of [rate] frames per second and [len] bytes of data. *)
Definition header (rate len : Z) : list byte :=
  RIFF ++ le_split 4 (36 + len) ++ WAVE ++ fmt_ ++ le_split 4 16
    ++ le_split 2 1 ++ le_split 2 1 ++ le_split 4 rate
    ++ le_split 4 (1 * rate * 2) ++ le_split 2 (1 * 2) ++ le_split 2 (2 * 8)
    ++ data ++ le_split 4 len.

(** The payload: every sample as two little-endian bytes, in order. *)
Definition payload (samples : list Z) : list byte :=
  concat (map (le_split 2) samples).

Definition int16 (v : Z) : Prop := -32768 <= v <= 32767.


(** The fields that [write_header] packs after the [RIFF] tag, for one
    channel and two bytes per sample. *)
Definition fields (rate len : Z) : list (result (list byte)) :=
  [ pack_L (36 + len); Ok WAVE; Ok fmt_; pack_L 16;
    pack_H WAVE_FORMAT_PCM; pack_H 1; pack_L rate;
    pack_L (1 * rate * 2); pack_H (1 * 2); pack_H (2 * 8); Ok data ].

(** The writer once lines 35-37 have run. *)
Definition configured (rate : Z) : Wave_write :=
  mk_writer [] 1 2 rate 0 0 0 0 false 0 0.

(** * Properties of the generator *)

(** ** [int] and [round] *)

Section Conversions.

Lemma Qle_0_num (q : Q) : (0 <= q)%Q <-> 0 <= Qnum q.
Proof. destruct q as [n d]; unfold Qle; simpl; lia. Qed.

Lemma Qle_num_0 (q : Q) : (q <= 0)%Q <-> Qnum q <= 0.
Proof. destruct q as [n d]; unfold Qle; simpl; lia. Qed.

Lemma int_of_Q_nonneg (q : Q) : (0 <= q)%Q -> int_of_Q q = Qfloor q.
Proof.
  intros H%Qle_0_num. destruct q as [n d]; simpl in *.
  unfold int_of_Q; simpl. apply Z.quot_div_nonneg; lia.
Qed.

Lemma int_of_Q_nonpos (q : Q) : (q <= 0)%Q -> int_of_Q q = Qceiling q.
Proof.
  intros H%Qle_num_0. destruct q as [n d]; simpl in *.
  unfold int_of_Q, Qceiling; simpl.
  rewrite <- (Z.opp_involutive n) at 1.
  rewrite Z.quot_opp_l by lia. f_equal.
  apply Z.quot_div_nonneg; lia.
Qed.

Lemma int_of_Q_sign (q : Q) : (q <= 0)%Q -> int_of_Q q <= 0.
Proof.
  intros H%Qle_num_0. destruct q as [n d]; unfold int_of_Q; simpl in *.
  rewrite <- (Z.opp_involutive n), Z.quot_opp_l by lia.
  assert (0 <= Z.quot (- n) (Z.pos d)) by (apply Z.quot_pos; lia). lia.
Qed.

(** [int] of a real: the integer part of the absolute value, with the sign. *)
Lemma int_of_R_nonneg (x : R) (n : Z) :
  (IZR n <= x < IZR n + 1)%R -> 0 <= n -> int_of_R x = n.
Proof.
  intros [Hlo Hhi] Hn. unfold int_of_R.
  destruct (Rle_dec 0 x) as [_ | Hneg].
  - symmetry. apply Int_part_spec. lra.
  - exfalso. apply Hneg. apply IZR_le in Hn. lra.
Qed.

Lemma int_of_R_abs_le (x : R) (b : Z) :
  (Rabs x < IZR b + 1)%R -> 0 <= b -> Z.abs (int_of_R x) <= b.
Proof.
  intros Hx Hb. unfold int_of_R.
  destruct (Rle_dec 0 x) as [Hpos | Hneg].
  - rewrite Rabs_right in Hx by lra.
    destruct (base_Int_part x) as [Hle Hgt].
    assert (H0 : (-1 < IZR (Int_part x))%R) by lra.
    assert (H1 : (IZR (Int_part x) < IZR (b + 1))%R)
      by (rewrite plus_IZR; lra).
    apply lt_IZR in H0, H1. lia.
  - assert (Hx' : (x < 0)%R) by lra.
    rewrite Rabs_left in Hx by lra.
    destruct (base_Int_part (- x)) as [Hle Hgt].
    assert (H0 : (-1 < IZR (Int_part (- x)))%R) by lra.
    assert (H1 : (IZR (Int_part (- x)) < IZR (b + 1))%R)
      by (rewrite plus_IZR; lra).
    apply lt_IZR in H0, H1. lia.
Qed.

End Conversions.

(** ** The loop *)

Section Loop.

Lemma range_nrange (n : Z) : range n = nrange (Z.to_nat n).
Proof. reflexivity. Qed.

Lemma nrange_S (n : nat) : nrange (S n) = nrange n ++ [Z.of_nat n].
Proof. unfold nrange. rewrite seq_S, map_app. reflexivity. Qed.

Lemma nrange_length (n : nat) : length (nrange n) = n.
Proof. unfold nrange. rewrite length_map, length_seq. reflexivity. Qed.

Lemma nrange_nth (n i : nat) :
  (i < n)%nat -> nth_error (nrange n) i = Some (Z.of_nat i).
Proof.
  intros Hi. unfold nrange.
  rewrite nth_error_map, nth_error_seq.
  apply Nat.ltb_lt in Hi. rewrite Hi. reflexivity.
Qed.

Lemma for_each_app {S : Type} (body : S -> Z -> result S) (l1 l2 : list Z) :
  forall st,
    for_each body st (l1 ++ l2)
    = (st' <- for_each body st l1 ;; for_each body st' l2).
Proof.
  induction l1 as [| i l1 IH]; intros st; simpl.
  - reflexivity.
  - destruct (body st i) as [st' | e]; simpl; [apply IH | reflexivity].
Qed.

Lemma next_frequency_idem (f : Q) :
  next_frequency (next_frequency f) = next_frequency f.
Proof. unfold next_frequency. destruct (Qeq_bool f 440); reflexivity. Qed.

Lemma next_frequency_440 : next_frequency 440 = 440%Q.
Proof. reflexivity. Qed.

Variable sample_rate : Z.

(** The two divisions of the body are defined exactly when [sample_rate]
    is neither 0 nor 1. *)
Lemma half_nonzero : sample_rate / 2 <> 0 <-> sample_rate < 0 \/ 2 <= sample_rate.
Proof.
  pose proof (Z.div_mod sample_rate 2 ltac:(lia)).
  pose proof (Z.mod_pos_bound sample_rate 2 ltac:(lia)). lia.
Qed.

Lemma loop_body_ok (st : loop_state) (i : Z) :
  sample_rate <> 0 -> sample_rate / 2 <> 0 ->
  loop_body sample_rate st i
  = Ok (mk_state
          (if i mod (sample_rate / 2) =? 0
           then next_frequency (frequency st) else frequency st)
          (samples st ++ [sample_at (frequency st) sample_rate i])).
Proof.
  intros Hsr Hhalf. unfold loop_body, truediv, floordiv, mod_.
  apply Z.eqb_neq in Hsr, Hhalf. rewrite Hsr. simpl. rewrite Hhalf.
  reflexivity.
Qed.

Lemma loop_body_raises (st : loop_state) (i : Z) :
  sample_rate = 0 \/ sample_rate / 2 = 0 ->
  loop_body sample_rate st i = Raise ZeroDivisionError.
Proof.
  intros H. unfold loop_body, truediv, floordiv, mod_.
  destruct (sample_rate =? 0) eqn:E0; [reflexivity |].
  destruct H as [H | H]; [apply Z.eqb_neq in E0; contradiction |].
  simpl. rewrite H. reflexivity.
Qed.

(** The loop invariant, in closed form: after the indices below [n], the
    variable [frequency] is [frequency_at f n] and [samples] holds one
    entry per index. *)
Lemma run_loop_nrange (f : Q) (n : nat) :
  sample_rate <> 0 -> sample_rate / 2 <> 0 ->
  run_loop sample_rate (mk_state f []) (nrange n)
  = Ok (mk_state (frequency_at f (Z.of_nat n))
          (map (fun i => sample_at (frequency_at f i) sample_rate i)
               (nrange n))).
Proof.
  intros Hsr Hhalf. unfold run_loop.
  induction n as [| n IH].
  - reflexivity.
  - rewrite nrange_S, for_each_app, IH. simpl.
    rewrite loop_body_ok by assumption. simpl.
    rewrite map_app. simpl. f_equal. f_equal.
    unfold frequency_at.
    replace (Z.of_nat (S n) <=? 0) with false by (symmetry; apply Z.leb_gt; lia).
    destruct n as [| n].
    + change (Z.of_nat 0) with 0. rewrite Zmod_0_l. reflexivity.
    + replace (Z.of_nat (S n) <=? 0) with false
        by (symmetry; apply Z.leb_gt; lia).
      rewrite next_frequency_idem.
      destruct (_ =? 0); reflexivity.
Qed.

Lemma run_loop_raises (st : loop_state) (i : Z) (l : list Z) :
  sample_rate = 0 \/ sample_rate / 2 = 0 ->
  run_loop sample_rate st (i :: l) = Raise ZeroDivisionError.
Proof.
  intros H. unfold run_loop. simpl.
  rewrite loop_body_raises by assumption. reflexivity.
Qed.

End Loop.

(** ** The generated sequence *)

Section Generated.

Variables (duration frequency0 : Q) (sample_rate : Z).

(** Generation completes exactly when the loop body is never entered or
    both of its divisions are defined. *)
Lemma generate_samples_ok :
  sample_rate <> 0 -> sample_rate / 2 <> 0 ->
  generate_samples duration frequency0 sample_rate
  = Ok (map (fun i => sample_at (frequency_at frequency0 i) sample_rate i)
            (range (num_samples duration sample_rate))).
Proof.
  intros Hsr Hhalf. unfold generate_samples.
  rewrite range_nrange, run_loop_nrange by assumption. reflexivity.
Qed.

Lemma generate_samples_empty :
  num_samples duration sample_rate <= 0 ->
  generate_samples duration frequency0 sample_rate = Ok [].
Proof.
  intros Hn. unfold generate_samples, range.
  replace (Z.to_nat _) with 0%nat by lia. reflexivity.
Qed.

Lemma generate_samples_raises :
  0 < num_samples duration sample_rate ->
  sample_rate = 0 \/ sample_rate / 2 = 0 ->
  generate_samples duration frequency0 sample_rate = Raise ZeroDivisionError.
Proof.
  intros Hn H. unfold generate_samples. rewrite range_nrange.
  destruct (Z.to_nat _) as [| n] eqn:E; [lia |].
  change (nrange (S n)) with (0 :: map Z.of_nat (seq 1 n)).
  rewrite run_loop_raises by assumption. reflexivity.
Qed.

Lemma generate_samples_inv (l : list Z) :
  generate_samples duration frequency0 sample_rate = Ok l ->
  l = map (fun i => sample_at (frequency_at frequency0 i) sample_rate i)
          (range (num_samples duration sample_rate)).
Proof.
  intros H.
  destruct (Z_le_gt_dec (num_samples duration sample_rate) 0) as [Hn | Hn].
  - rewrite generate_samples_empty in H by assumption.
    injection H as <-. unfold range.
    replace (Z.to_nat _) with 0%nat by lia. reflexivity.
  - destruct (Z.eq_dec sample_rate 0) as [H0 | H0].
    { rewrite generate_samples_raises in H by (auto; lia). discriminate. }
    destruct (Z.eq_dec (sample_rate / 2) 0) as [H1 | H1].
    { rewrite generate_samples_raises in H by (auto; lia). discriminate. }
    rewrite generate_samples_ok in H by assumption.
    injection H as <-. reflexivity.
Qed.

Lemma generate_samples_length (l : list Z) :
  generate_samples duration frequency0 sample_rate = Ok l ->
  Z.of_nat (length l) = Z.max 0 (num_samples duration sample_rate).
Proof.
  intros ->%generate_samples_inv.
  rewrite length_map, range_nrange, nrange_length. lia.
Qed.

End Generated.

(** ** The frequency in force *)

Section Frequency.

Lemma active_frequency_closed (f : Q) (sample_rate i : Z) :
  sample_rate <> 0 -> sample_rate / 2 <> 0 ->
  active_frequency f sample_rate i = Ok (frequency_at f (Z.max 0 i)).
Proof.
  intros Hsr Hhalf. unfold active_frequency.
  rewrite range_nrange, run_loop_nrange by assumption. simpl.
  rewrite ZifyInst.of_nat_to_nat_eq. reflexivity.
Qed.

(** C1. The frequency never alternates. The sample of index 0 is computed
    with the base frequency; line 27 then keeps 440 when the frequency is
    440 and sets 523 otherwise, so from index 1 on the frequency has one
    and the same value (440 for the base frequency 440), also across every
    boundary [i mod (sample_rate // 2) == 0]. *)
Theorem active_frequency_constant (f : Q) (sample_rate i : Z) :
  2 <= sample_rate -> 0 <= i ->
  active_frequency f sample_rate i
  = Ok (if i =? 0 then f else if Qeq_bool f 440 then 440%Q else 523%Q).
Proof.
  intros Hsr Hi.
  rewrite active_frequency_closed
    by (try apply half_nonzero; lia).
  rewrite Z.max_r by assumption. unfold frequency_at, next_frequency.
  destruct (Z.eqb_spec i 0) as [-> | Hne]; [reflexivity |].
  replace (i <=? 0) with false by (symmetry; apply Z.leb_gt; lia).
  reflexivity.
Qed.

(** Line 27 against the toggle of the specification, on the two pitches. *)
Lemma next_frequency_not_toggle :
  next_frequency 440 = 440%Q /\ spec_next_frequency 440 = 523%Q
  /\ next_frequency 523 = 523%Q /\ spec_next_frequency 523 = 440%Q.
Proof. repeat split. Qed.

(** The script's own call: at the end of the first half second, index
    22050, the frequency is still 440. *)
Lemma active_frequency_constant_witness :
  active_frequency 440 44100 22050 = Ok 440%Q.
Proof.
  exact (active_frequency_constant 440 44100 22050 ltac:(lia) ltac:(lia)).
Defined.

End Frequency.

(** ** The number of samples *)

Section Length.

Variables (duration frequency0 : Q) (sample_rate : Z).

Lemma num_samples_floor :
  Z.max 0 (num_samples duration sample_rate)
  = Z.max 0 (Qfloor (duration * inject_Z sample_rate)).
Proof.
  unfold num_samples.
  destruct (Qlt_le_dec (duration * inject_Z sample_rate) 0) as [Hneg | Hpos].
  - apply Qlt_le_weak in Hneg.
    pose proof (int_of_Q_sign _ Hneg).
    assert (Qfloor (duration * inject_Z sample_rate) <= 0).
    { change 0 with (Qfloor 0). apply Qfloor_resp_le. assumption. }
    lia.
  - rewrite int_of_Q_nonneg by assumption. reflexivity.
Qed.



End Length.




(** ** Completion *)

Section Completion.





End Completion.

(** ** The sample values *)

Section Values.


Lemma amplitude_bound (f : Q) (t : R) : (Rabs (amplitude f t * 32767) < 9831)%R.
Proof.
  unfold amplitude.
  pose proof (SIN_bound (2 * PI * Q2R f * t)) as [Hlo Hhi].
  apply Rabs_def1; lra.
Qed.

Lemma sample_at_bound (f : Q) (sample_rate i : Z) :
  Z.abs (sample_at f sample_rate i) <= 9830.
Proof.
  unfold sample_at. apply int_of_R_abs_le; [| lia].
  replace (IZR 9830 + 1)%R with 9831%R by lra. apply amplitude_bound.
Qed.

Variables (duration frequency0 : Q) (sample_rate : Z).


(** C6. Every generated sample is a 16-bit signed value, and is at most
    9830 = round(0.3 * 32767) in absolute value. *)
Theorem samples_bounded (l : list Z) :
  generate_samples duration frequency0 sample_rate = Ok l ->
  Forall (fun s => (-32768 <= s <= 32767) /\ Z.abs s <= 9830) l
  /\ round_of_Q ((3 # 10) * 32767) = 9830.
Proof.
  intros ->%generate_samples_inv. split; [| reflexivity].
  apply Forall_map, Forall_forall. intros i _.
  pose proof (sample_at_bound (frequency_at frequency0 i) sample_rate i).
  lia.
Qed.

End Values.

Lemma samples_bounded_witness :
  exists l, generate_samples 1 440 8 = Ok l
    /\ Forall (fun s => (-32768 <= s <= 32767) /\ Z.abs s <= 9830) l
    /\ round_of_Q ((3 # 10) * 32767) = 9830.
Proof.
  pose proof (generate_samples_ok 1 440 8
                ltac:(lia) ltac:(discriminate)) as Hgen.
  eexists. split; [exact Hgen |].
  exact (samples_bounded 1 440 8 _ Hgen).
Defined.

(** *** One sample computed: an eighth of a period at 440 Hz *)

Section EighthPeriod.





End EighthPeriod.



(** * Properties of the writer *)

Ltac wave_unfold :=
  cbv beta iota zeta delta
      [mbind ret raise get put lift when modify file_write file_tell
       file_write_at write_header ensure_header_written patchheader
       writeframesraw writeframes close setnchannels setsampwidth setframerate
       set_file set_nchannels set_sampwidth set_framerate set_nframes
       set_nframeswritten set_datawritten set_datalength set_headerwritten
       set_form_length_pos set_data_length_pos
       file nchannels sampwidth framerate nframes nframeswritten datawritten
       datalength headerwritten form_length_pos data_length_pos
       bind floordiv configured initfp].

Section Packing.

Lemma pack_unsigned_ok (n : nat) (v : Z) :
  0 <= v < 2 ^ (8 * Z.of_nat n) -> pack_unsigned n v = Ok (le_split n v).
Proof.
  intros [Hlo Hhi]. unfold pack_unsigned.
  apply Z.leb_le in Hlo. apply Z.ltb_lt in Hhi. rewrite Hlo, Hhi. reflexivity.
Qed.

Lemma pack_unsigned_cases (n : nat) (v : Z) :
  pack_unsigned n v = Ok (le_split n v) \/ pack_unsigned n v = Raise StructError.
Proof. unfold pack_unsigned. destruct (_ && _); auto. Qed.

Lemma pack_unsigned_raises (n : nat) (v : Z) :
  v < 0 \/ 2 ^ (8 * Z.of_nat n) <= v -> pack_unsigned n v = Raise StructError.
Proof.
  intros H. unfold pack_unsigned.
  destruct (0 <=? v) eqn:E1; [| reflexivity].
  destruct (v <? _) eqn:E2; [| reflexivity].
  apply Z.leb_le in E1. apply Z.ltb_lt in E2. lia.
Qed.

Lemma pack_h_ok (v : Z) : int16 v -> pack_h v = Ok (le_split 2 v).
Proof.
  intros [Hlo Hhi]. unfold pack_h.
  apply Z.leb_le in Hlo, Hhi. rewrite Hlo, Hhi. reflexivity.
Qed.

Lemma pack_h_raises (v : Z) : ~ int16 v -> pack_h v = Raise StructError.
Proof.
  intros H. unfold pack_h.
  destruct (-32768 <=? v) eqn:E1; [| reflexivity].
  destruct (v <=? 32767) eqn:E2; [| reflexivity].
  apply Z.leb_le in E1, E2. exfalso. apply H. split; assumption.
Qed.

Lemma int16_dec (v : Z) : {int16 v} + {~ int16 v}.
Proof.
  unfold int16.
  destruct (Z_le_dec (-32768) v); [destruct (Z_le_dec v 32767) |];
    (left; lia) || (right; lia).
Defined.

Lemma pack_hs_ok (vs : list Z) :
  Forall int16 vs -> pack_hs vs = Ok (payload vs).
Proof.
  induction 1 as [| v vs Hv _ IH]; simpl.
  - reflexivity.
  - rewrite pack_h_ok, IH by assumption. reflexivity.
Qed.

Lemma pack_hs_raises (vs : list Z) :
  Exists (fun v => ~ int16 v) vs -> pack_hs vs = Raise StructError.
Proof.
  induction vs as [| v vs IH]; intros H.
  - inversion H.
  - simpl. destruct (int16_dec v) as [Hv | Hv].
    + rewrite pack_h_ok by assumption. simpl.
      rewrite IH; [reflexivity |].
      inversion H; subst; [contradiction | assumption].
    + rewrite pack_h_raises by assumption. reflexivity.
Qed.

Lemma payload_length (vs : list Z) :
  length (payload vs) = (2 * length vs)%nat.
Proof.
  unfold payload. induction vs as [| v vs IH]; simpl.
  - reflexivity.
  - rewrite IH. lia.
Qed.

Lemma fields_ok (rate len : Z) :
  0 < rate -> 2 * rate < 2 ^ 32 -> 0 <= len -> 36 + len < 2 ^ 32 ->
  pack_all (fields rate len)
  = Ok (le_split 4 (36 + len) ++ WAVE ++ fmt_ ++ le_split 4 16
        ++ le_split 2 1 ++ le_split 2 1 ++ le_split 4 rate
        ++ le_split 4 (1 * rate * 2) ++ le_split 2 (1 * 2)
        ++ le_split 2 (2 * 8) ++ data ++ []).
Proof.
  intros H1 H2 H3 H4. unfold fields, pack_all, pack_L, pack_H.
  rewrite !pack_unsigned_ok
    by (change (2 ^ (8 * Z.of_nat 4)) with 4294967296;
        change (2 ^ (8 * Z.of_nat 2)) with 65536;
        unfold WAVE_FORMAT_PCM; lia).
  reflexivity.
Qed.

Lemma fields_raises (rate len : Z) :
  2 ^ 32 <= 2 * rate \/ 2 ^ 32 <= 36 + len ->
  pack_all (fields rate len) = Raise StructError.
Proof.
  intros H. unfold fields, pack_all, pack_L, pack_H.
  destruct (Z_lt_dec (36 + len) (2 ^ 32)) as [Hlen | Hlen].
  - destruct H as [H | H]; [| lia].
    destruct (pack_unsigned_cases 4 (36 + len)) as [-> | ->]; [| reflexivity].
    rewrite (pack_unsigned_ok 4 16), (pack_unsigned_ok 2 WAVE_FORMAT_PCM),
      (pack_unsigned_ok 2 1) by (simpl; unfold WAVE_FORMAT_PCM; lia).
    destruct (pack_unsigned_cases 4 rate) as [-> | ->]; [| reflexivity].
    rewrite (pack_unsigned_raises 4 (1 * rate * 2))
      by (change (2 ^ (8 * Z.of_nat 4)) with 4294967296; lia).
    reflexivity.
  - rewrite (pack_unsigned_raises 4 (36 + len))
      by (change (2 ^ (8 * Z.of_nat 4)) with 4294967296; lia).
    reflexivity.
Qed.

Lemma header_length (rate len : Z) : length (header rate len) = 44%nat.
Proof. reflexivity. Qed.

End Packing.

Section Writer.

Local Open Scope wave_scope.

Variable rate : Z.

(** Lines 35-37. *)
Lemma configure_spec (k : method unit) :
  (setnchannels 1 ;; setsampwidth 2 ;; setframerate rate ;; k) initfp
  = if rate <=? 0
    then (Raise WaveError, mk_writer [] 1 2 0 0 0 0 0 false 0 0)
    else k (configured rate).
Proof.
  wave_unfold. simpl. destruct (rate <=? 0); reflexivity.
Qed.

Lemma write_header_spec (i : Z) (f : list byte) (nf nw dw dl : Z) (p q : nat) :
  write_header i (mk_writer f 1 2 rate nf nw dw dl false p q)
  = let nf' := if nf =? 0 then i / (1 * 2) else nf in
    let dl' := nf' * 1 * 2 in
    match pack_all (fields rate dl') with
    | Ok hdr =>
        match pack_L dl' with
        | Ok len =>
            (Ok tt,
             mk_writer (((f ++ RIFF) ++ hdr) ++ len) 1 2 rate nf' nw dw dl'
               true (length (f ++ RIFF)) (length ((f ++ RIFF) ++ hdr)))
        | Raise e =>
            (Raise e,
             mk_writer ((f ++ RIFF) ++ hdr) 1 2 rate nf' nw dw dl'
               false (length (f ++ RIFF)) (length ((f ++ RIFF) ++ hdr)))
        end
    | Raise e =>
        (Raise e,
         mk_writer (f ++ RIFF) 1 2 rate nf' nw dw dl' false
           (length (f ++ RIFF)) q)
    end.
Proof.
  unfold fields. wave_unfold. change (1 * 2 =? 0) with false.
  destruct (nf =? 0); wave_unfold;
    (destruct (pack_all _) as [hdr | e]; [| reflexivity]);
    destruct (pack_L _); reflexivity.
Qed.

Lemma ensure_header_written_spec (i : Z) (f : list byte) (nf nw dw dl : Z)
      (p q : nat) :
  rate <> 0 ->
  ensure_header_written i (mk_writer f 1 2 rate nf nw dw dl false p q)
  = write_header i (mk_writer f 1 2 rate nf nw dw dl false p q).
Proof.
  intros H%Z.eqb_neq. unfold ensure_header_written.
  cbv beta iota delta [mbind get headerwritten nchannels sampwidth framerate].
  rewrite H. reflexivity.
Qed.

Hypothesis rate_pos : 0 < rate.

(** [writeframes] on an even number of bytes when the header fits. *)
Lemma writeframes_ok (d : list byte) (n : Z) :
  Z.of_nat (length d) = 2 * n ->
  2 * rate < 2 ^ 32 -> 36 + 2 * n < 2 ^ 32 ->
  writeframes d (configured rate)
  = (Ok tt,
     mk_writer (header rate (2 * n) ++ d) 1 2 rate n n (2 * n) (2 * n)
       true 4 40).
Proof.
  intros Hd Hr Hn. unfold writeframes, writeframesraw.
  unfold mbind at 1 2. unfold configured at 1.
  rewrite ensure_header_written_spec, write_header_spec by lia.
  cbv zeta. change (0 =? 0) with true. cbv iota.
  rewrite Hd.
  replace (2 * n / (1 * 2) * 1 * 2) with (2 * n)
    by (change (1 * 2) with 2; rewrite Z.mul_comm, Z.div_mul by lia; lia).
  replace (2 * n / (1 * 2)) with n
    by (change (1 * 2) with 2; rewrite Z.mul_comm, Z.div_mul by lia; lia).
  rewrite fields_ok by lia.
  unfold pack_L. rewrite pack_unsigned_ok
    by (change (2 ^ (8 * Z.of_nat 4)) with 4294967296; lia).
  wave_unfold. change (2 * 1 =? 0) with false. cbv iota.
  replace (2 * n / (2 * 1)) with n
    by (change (2 * 1) with 2; rewrite Z.mul_comm, Z.div_mul by lia; lia).
  change (0 + n) with n. change (0 + 2 * n) with (2 * n).
  rewrite Z.eqb_refl. cbv iota beta delta [negb].
  reflexivity.
Qed.

End Writer.

Section WriterOutcome.

Local Open Scope wave_scope.

Variables (rate : Z) (samples : list Z).

Lemma close_written (w : Wave_write) :
  headerwritten w = true -> datalength w = datawritten w ->
  close w = (Ok tt, w).
Proof.
  intros Hh Hd. unfold close, ensure_header_written.
  cbv beta iota delta [mbind get ret when]. rewrite Hh, Hd, Z.eqb_refl.
  reflexivity.
Qed.

Lemma close_configured_ok :
  0 < rate -> 2 * rate < 2 ^ 32 ->
  close (configured rate)
  = (Ok tt, mk_writer (header rate 0) 1 2 rate 0 0 0 0 true 4 40).
Proof.
  intros Hr Hr2. unfold close. unfold mbind at 1. unfold configured at 1.
  rewrite ensure_header_written_spec, write_header_spec by lia.
  cbv zeta. change (0 =? 0) with true. cbv iota.
  change (0 / (1 * 2) * 1 * 2) with 0.
  rewrite fields_ok by lia. reflexivity.
Qed.

Lemma close_configured_raises :
  0 < rate -> 2 ^ 32 <= 2 * rate ->
  close (configured rate)
  = (Raise StructError, mk_writer RIFF 1 2 rate 0 0 0 0 false 4 0).
Proof.
  intros Hr Hr2. unfold close. unfold mbind at 1. unfold configured at 1.
  rewrite ensure_header_written_spec, write_header_spec by lia.
  cbv zeta. change (0 =? 0) with true. cbv iota.
  change (0 / (1 * 2) * 1 * 2) with 0.
  rewrite fields_raises by lia. reflexivity.
Qed.

(** The header does not fit its fields: [writeframes] raises after the
    [RIFF] tag, and so does [close] after a second one. *)
Lemma writeframes_raises (d : list byte) (n : Z) :
  0 < rate -> 0 <= n -> Z.of_nat (length d) = 2 * n ->
  2 ^ 32 <= 2 * rate \/ 2 ^ 32 <= 36 + 2 * n ->
  writeframes d (configured rate)
  = (Raise StructError, mk_writer RIFF 1 2 rate n 0 0 (2 * n) false 4 0)
  /\ close (mk_writer RIFF 1 2 rate n 0 0 (2 * n) false 4 0)
     = (Raise StructError,
        mk_writer (RIFF ++ RIFF) 1 2 rate n 0 0 (2 * n) false 8 0).
Proof.
  intros Hr Hn Hd Hbig. split.
  - unfold writeframes, writeframesraw.
    unfold mbind at 1 2. unfold configured at 1.
    rewrite ensure_header_written_spec, write_header_spec by lia.
    cbv zeta. change (0 =? 0) with true. cbv iota.
    rewrite Hd.
    replace (2 * n / (1 * 2) * 1 * 2) with (2 * n)
      by (change (1 * 2) with 2; rewrite Z.mul_comm, Z.div_mul by lia; lia).
    replace (2 * n / (1 * 2)) with n
      by (change (1 * 2) with 2; rewrite Z.mul_comm, Z.div_mul by lia; lia).
    rewrite fields_raises by lia. reflexivity.
  - unfold close. unfold mbind at 1.
    rewrite ensure_header_written_spec, write_header_spec by lia.
    cbv zeta.
    replace (if n =? 0 then 0 / (1 * 2) else n) with n
      by (destruct (Z.eqb_spec n 0) as [-> |]; reflexivity).
    replace (n * 1 * 2) with (2 * n) by lia.
    rewrite fields_raises by lia. reflexivity.
Qed.

Lemma payload_even :
  Z.of_nat (length (payload samples)) = 2 * Z.of_nat (length samples).
Proof. rewrite payload_length. lia. Qed.

(** The four ways [write_wav] can go. *)
Lemma write_wav_bad_rate :
  rate <= 0 -> write_wav rate samples = Failed WaveError [].
Proof.
  intros H%Z.leb_le. unfold write_wav, with_open.
  rewrite configure_spec, H. reflexivity.
Qed.

Lemma write_wav_bad_sample :
  0 < rate -> Exists (fun v => ~ int16 v) samples ->
  write_wav rate samples
  = Failed StructError (if 2 * rate <? 2 ^ 32 then header rate 0 else RIFF).
Proof.
  intros Hr Hbad. unfold write_wav, with_open.
  rewrite configure_spec.
  replace (rate <=? 0) with false by (symmetry; apply Z.leb_gt; lia).
  unfold mbind, lift. rewrite pack_hs_raises by assumption.
  destruct (Z.ltb_spec (2 * rate) (2 ^ 32)) as [Hfit | Hbig].
  - rewrite close_configured_ok by lia. reflexivity.
  - rewrite close_configured_raises by lia. reflexivity.
Qed.

Lemma write_wav_too_big :
  0 < rate -> Forall int16 samples ->
  2 ^ 32 <= 2 * rate \/ 2 ^ 32 <= 36 + 2 * Z.of_nat (length samples) ->
  write_wav rate samples = Failed StructError (RIFF ++ RIFF).
Proof.
  intros Hr Hall Hbig. unfold write_wav, with_open.
  rewrite configure_spec.
  replace (rate <=? 0) with false by (symmetry; apply Z.leb_gt; lia).
  unfold mbind at 1. unfold lift. rewrite pack_hs_ok by assumption.
  destruct (writeframes_raises (payload samples)
              (Z.of_nat (length samples)) Hr ltac:(lia) payload_even Hbig)
    as [-> ->].
  reflexivity.
Qed.

Lemma write_wav_ok :
  0 < rate -> 2 * rate < 2 ^ 32 -> Forall int16 samples ->
  36 + 2 * Z.of_nat (length samples) < 2 ^ 32 ->
  write_wav rate samples
  = Written (header rate (2 * Z.of_nat (length samples)) ++ payload samples).
Proof.
  intros Hr Hr2 Hall Hlen. unfold write_wav, with_open.
  rewrite configure_spec.
  replace (rate <=? 0) with false by (symmetry; apply Z.leb_gt; lia).
  unfold mbind at 1. unfold lift. rewrite pack_hs_ok by assumption.
  rewrite (writeframes_ok rate Hr _ _ payload_even Hr2 Hlen).
  rewrite close_written by reflexivity. reflexivity.
Qed.

Lemma write_wav_written_inv (content : list byte) :
  write_wav rate samples = Written content ->
  0 < rate /\ 2 * rate < 2 ^ 32 /\ Forall int16 samples
  /\ 36 + 2 * Z.of_nat (length samples) < 2 ^ 32
  /\ content = header rate (2 * Z.of_nat (length samples)) ++ payload samples.
Proof.
  intros H.
  destruct (Z_le_gt_dec rate 0) as [Hr | Hr].
  { rewrite write_wav_bad_rate in H by assumption. discriminate. }
  destruct (Forall_Exists_dec int16 int16_dec samples) as [Hall | Hbad].
  2: { rewrite write_wav_bad_sample in H by (assumption || lia). discriminate. }
  destruct (Z_lt_dec (2 * rate) (2 ^ 32)) as [Hr2 | Hr2].
  2: { rewrite write_wav_too_big in H by (assumption || lia). discriminate. }
  destruct (Z_lt_dec (36 + 2 * Z.of_nat (length samples)) (2 ^ 32))
    as [Hlen | Hlen].
  2: { rewrite write_wav_too_big in H by (assumption || lia). discriminate. }
  rewrite write_wav_ok in H by (assumption || lia).
  injection H as <-. repeat split; (assumption || lia).
Qed.

End WriterOutcome.

(** * Reading the file back *)

Section Reader.

Lemma le_combine_split_small (n : nat) (v : Z) :
  0 <= v < 2 ^ (8 * Z.of_nat n) -> le_combine (le_split n v) = v.
Proof.
  intros H. rewrite le_combine_split. apply Z.mod_small.
  rewrite Z.mul_comm. assumption.
Qed.

Lemma read_chunks_S (fuel : nat) (buf : list byte) (fmt : option (Z * Z * Z)) :
  read_chunks (S fuel) buf fmt
  = match chunk_open buf with
    | Raise _ => Raise WaveError
    | Ok (name, size, rest) =>
        let content := firstn (Z.to_nat size) rest in
        let next := skipn (Z.to_nat (size + size mod 2)) rest in
        if bytes_eqb name fmt_ then
          bind (read_fmt_chunk content)
               (fun f => read_chunks fuel next (Some f))
        else if bytes_eqb name data then
          match fmt with
          | None => Raise WaveError
          | Some (nch, rate, width) =>
              Ok (mk_reader nch width rate (size / (nch * width)) content)
          end
        else read_chunks fuel next fmt
    end.
Proof. reflexivity. Qed.

(** A chunk header: four bytes of name, the size, the rest. *)
Lemma chunk_open_spec (name : list byte) (size : Z) (rest : list byte) :
  length name = 4%nat -> 0 <= size < 2 ^ 32 ->
  chunk_open (name ++ le_split 4 size ++ rest) = Ok (name, size, rest).
Proof.
  intros Hname H.
  destruct name as [| b0 [| b1 [| b2 [| b3 [| ? ?]]]]]; try discriminate.
  unfold chunk_open, unpack_unsigned.
  change (firstn 4 (skipn 4 ([b0; b1; b2; b3] ++ le_split 4 size ++ rest)))
    with (le_split 4 size).
  rewrite le_combine_split_small by exact H. reflexivity.
Qed.

Variables (rate len : Z) (d : list byte).
Hypothesis rate_fits : 0 < rate /\ 2 * rate < 2 ^ 32.
Hypothesis len_fits : 0 <= len /\ 36 + len < 2 ^ 32.
Hypothesis d_length : Z.of_nat (length d) = len.

Lemma read_fmt_chunk_header (rest : list byte) :
  read_fmt_chunk
    (le_split 2 1 ++ le_split 2 1 ++ le_split 4 rate
       ++ le_split 4 (1 * rate * 2) ++ le_split 2 (1 * 2)
       ++ le_split 2 (2 * 8) ++ rest)
  = Ok (1, rate, 2).
Proof.
  unfold read_fmt_chunk, unpack_unsigned.
  match goal with
  | |- context [le_combine (firstn 4 (skipn 4 ?c))] =>
      change (firstn 4 (skipn 4 c)) with (le_split 4 rate)
  end.
  rewrite le_combine_split_small
    by (change (2 ^ (8 * Z.of_nat 4)) with 4294967296; lia).
  reflexivity.
Qed.

Lemma open_read_written :
  open_read (header rate len ++ d) = Ok (mk_reader 1 2 rate (len / 2) d).
Proof.
  unfold open_read, header. rewrite <- !app_assoc.
  rewrite chunk_open_spec by (reflexivity || lia).
  change (negb (bytes_eqb _ RIFF)) with false. cbv iota.
  rewrite (firstn_all2 (n := Z.to_nat (36 + len))).
  2: { rewrite !length_app, !length_le_split.
       unfold WAVE, fmt_, data. cbn [length]. lia. }
  change (negb (bytes_eqb _ WAVE)) with false. cbv iota.
  change (skipn 4 (WAVE ++ ?x)) with x.
  change (length (WAVE ++ fmt_ ++ ?x)) with (S (7 + length x)).
  rewrite read_chunks_S, chunk_open_spec by (reflexivity || lia).
  change (bytes_eqb _ fmt_) with true. cbv iota zeta.
  change (firstn (Z.to_nat 16) ?x) with (firstn 16 x).
  match goal with
  | |- context [read_fmt_chunk (firstn 16 ?c)] =>
      change (firstn 16 c)
        with (le_split 2 1 ++ le_split 2 1 ++ le_split 4 rate
                ++ le_split 4 (1 * rate * 2) ++ le_split 2 (1 * 2)
                ++ le_split 2 (2 * 8) ++ [])
  end.
  rewrite read_fmt_chunk_header. cbv beta iota delta [bind].
  change (skipn (Z.to_nat (16 + 16 mod 2)) ?x) with (skipn 16 x).
  match goal with
  | |- read_chunks _ (skipn 16 ?c) _ = _ =>
      change (skipn 16 c) with (data ++ le_split 4 len ++ d)
  end.
  rewrite read_chunks_S, chunk_open_spec by (reflexivity || lia).
  change (bytes_eqb _ fmt_) with false. 
  change (bytes_eqb _ data) with true. cbv iota zeta.
  rewrite firstn_all2 by lia. reflexivity.
Qed.

End Reader.

(** * The written file *)

Section Payload.

Lemma unpack_h_split (v : Z) (rest : list byte) :
  int16 v -> unpack_h (le_split 2 v ++ rest) = Ok v.
Proof.
  intros [Hlo Hhi]. unfold unpack_h, unpack_unsigned.
  change (firstn 2 (le_split 2 v ++ rest)) with (le_split 2 v).
  rewrite le_combine_split.
  change (length (le_split 2 v ++ rest) <? 2)%nat with false.
  cbv beta iota delta [bind]. f_equal.
  change (2 ^ (Z.of_nat 2 * 8)) with 65536.
  destruct (Z_lt_dec v 0) as [Hneg | Hpos].
  - replace (v mod 65536) with (v + 65536)
      by (apply Z.mod_unique with (-1); lia).
    destruct (Z.ltb_spec (v + 65536) 32768); lia.
  - rewrite Z.mod_small by lia.
    destruct (Z.ltb_spec v 32768); lia.
Qed.

(** Read back two bytes at a time as signed values, the payload is the
    sequence it was made from. *)
Lemma unpack_hs_payload (vs : list Z) :
  Forall int16 vs -> unpack_hs (length vs) (payload vs) = Ok vs.
Proof.
  induction 1 as [| v vs Hv _ IH].
  - reflexivity.
  - change (payload (v :: vs)) with (le_split 2 v ++ payload vs).
    cbn [length unpack_hs]. rewrite unpack_h_split by assumption.
    change (skipn 2 (le_split 2 v ++ payload vs)) with (payload vs).
    cbv beta iota delta [bind]. rewrite IH. reflexivity.
Qed.

(** C7. What follows the 44 bytes of header in a written file is the
    payload: the two little-endian bytes of every sample, in the order of
    the sequence and with nothing in between, [2 * length samples] bytes
    in all; these bytes read back as the signed values of the sequence,
    and they are the frames a reader of the file gets. *)
Theorem payload_is_samples (rate : Z) (samples : list Z) (content : list byte) :
  write_wav rate samples = Written content ->
  content = firstn 44 content ++ payload samples
  /\ skipn 44 content = concat (map (le_split 2) samples)
  /\ length (skipn 44 content) = (2 * length samples)%nat
  /\ unpack_hs (length samples) (skipn 44 content) = Ok samples
  /\ exists r, open_read content = Ok r /\ frames r = skipn 44 content.
Proof.
  intros (Hr & Hr2 & Hall & Hlen & ->)%write_wav_written_inv.
  assert (Hskip : skipn 44 (header rate (2 * Z.of_nat (length samples))
                             ++ payload samples) = payload samples)
    by reflexivity.
  rewrite Hskip.
  split; [reflexivity |]. split; [reflexivity |].
  split; [| split].
  - apply payload_length.
  - apply unpack_hs_payload. assumption.
  - eexists. split.
    + apply (open_read_written rate (2 * Z.of_nat (length samples)));
        [lia | lia | apply payload_even].
    + reflexivity.
Qed.

End Payload.

Lemma payload_is_samples_witness :
  exists content,
    write_wav 8000 [0; 3329; -2] = Written content
    /\ skipn 44 content = concat (map (le_split 2) [0; 3329; -2])
    /\ unpack_hs 3 (skipn 44 content) = Ok [0; 3329; -2].
Proof.
  assert (Hall : Forall int16 [0; 3329; -2])
    by (repeat constructor; unfold int16; lia).
  pose proof (write_wav_ok 8000 [0; 3329; -2]
                ltac:(lia) ltac:(reflexivity) Hall ltac:(reflexivity)) as Hw.
  eexists. split; [exact Hw |].
  destruct (payload_is_samples 8000 [0; 3329; -2] _ Hw) as (_ & H1 & _ & H2 & _).
  split; [exact H1 | exact H2].
Defined.

Section WholeScript.

Variables (duration frequency0 : Q) (sample_rate : Z).

(** The script runs to the end whenever the sample rate is at least 2 and
    the header fields fit their 32 bits. *)
Lemma create_test_audio_written :
  2 <= sample_rate -> 2 * sample_rate < 2 ^ 32 ->
  36 + 2 * Z.max 0 (num_samples duration sample_rate) < 2 ^ 32 ->
  exists samples : list Z,
    generate_samples duration frequency0 sample_rate = Ok samples
    /\ create_test_audio duration frequency0 sample_rate
       = Ok (Written (header sample_rate (2 * Z.of_nat (length samples))
                        ++ payload samples)).
Proof.
  intros Hsr Hsr2 Hn.
  assert (Hgen := generate_samples_ok duration frequency0 sample_rate
                    ltac:(lia) ltac:(apply half_nonzero; lia)).
  eexists. split; [exact Hgen |].
  unfold create_test_audio. rewrite Hgen. cbv beta iota delta [bind].
  rewrite write_wav_ok; [reflexivity | lia | lia | |].
  - apply Forall_map, Forall_forall. intros i _.
    pose proof (sample_at_bound (frequency_at frequency0 i) sample_rate i).
    unfold int16. lia.
  - rewrite length_map, range_nrange, nrange_length. lia.
Qed.

(** C8. A file that the script has written reads back as one channel of
    2-byte (16-bit) samples at the configured rate, with as many frames
    as samples were generated. *)
Theorem round_trip (content : list byte) :
  create_test_audio duration frequency0 sample_rate = Ok (Written content) ->
  exists (samples : list Z) (r : Wave_read),
    generate_samples duration frequency0 sample_rate = Ok samples
    /\ open_read content = Ok r
    /\ getnchannels r = 1
    /\ getsampwidth r = 2
    /\ 8 * getsampwidth r = 16
    /\ getframerate r = sample_rate
    /\ getnframes r = Z.of_nat (length samples).
Proof.
  unfold create_test_audio.
  destruct (generate_samples duration frequency0 sample_rate)
    as [samples | e]; [| discriminate].
  cbv beta iota delta [bind]. intros [= Hw].
  apply write_wav_written_inv in Hw as (Hr & Hr2 & Hall & Hlen & ->).
  exists samples. eexists. split; [reflexivity |]. split.
  - apply (open_read_written sample_rate (2 * Z.of_nat (length samples)));
      [lia | lia | apply payload_even].
  - cbn [getnchannels getsampwidth getframerate getnframes].
    repeat split.
    rewrite Z.mul_comm. apply Z.div_mul. lia.
Qed.


End WholeScript.

Lemma round_trip_witness :
  exists (content : list byte) (samples : list Z) (r : Wave_read),
    create_test_audio (1 # 2) 440 8 = Ok (Written content)
    /\ generate_samples (1 # 2) 440 8 = Ok samples
    /\ open_read content = Ok r
    /\ getnchannels r = 1
    /\ getsampwidth r = 2
    /\ 8 * getsampwidth r = 16
    /\ getframerate r = 8
    /\ getnframes r = Z.of_nat (length samples).
Proof.
  destruct (create_test_audio_written (1 # 2) 440 8
              ltac:(lia) ltac:(reflexivity) ltac:(reflexivity))
    as (samples0 & _ & Hc).
  eexists.
  destruct (round_trip (1 # 2) 440 8 _ Hc) as (samples & r & H).
  exists samples, r. split; [exact Hc | exact H].
Defined.



(** ** Samples outside the 16-bit range *)

Section Rejection.

(** C9. A sequence with a sample outside [-32768, 32767] is never
    written: [write_wav] fails, with [struct.error] whenever the sample
    rate is positive, and the file holds at most a header, no sample. *)
Theorem out_of_range_rejected (rate : Z) (samples : list Z) :
  Exists (fun v => ~ int16 v) samples ->
  exists (e : exn) (content : list byte),
    write_wav rate samples = Failed e content
    /\ (0 < rate -> e = StructError)
    /\ (length content <= 44)%nat
    /\ (forall written, write_wav rate samples <> Written written).
Proof.
  intros Hbad.
  destruct (Z_le_gt_dec rate 0) as [Hr | Hr].
  - exists WaveError, []. rewrite write_wav_bad_rate by assumption.
    repeat split; [lia | simpl; lia | discriminate].
  - eexists. eexists. rewrite write_wav_bad_sample by (assumption || lia).
    split; [reflexivity |]. split; [reflexivity |]. split; [| discriminate].
    destruct (2 * rate <? 2 ^ 32); simpl; lia.
Qed.

End Rejection.

Lemma out_of_range_rejected_witness :
  exists (e : exn) (content : list byte),
    write_wav 44100 [0; 40000] = Failed e content
    /\ (0 < 44100 -> e = StructError)
    /\ (length content <= 44)%nat
    /\ (forall written, write_wav 44100 [0; 40000] <> Written written).
Proof.
  apply out_of_range_rejected.
  apply Exists_cons_tl, Exists_cons_hd. unfold int16. lia.
Defined.

(** * More about the generator *)

Section GeneratorEdges.

Variables (duration frequency0 : Q) (sample_rate : Z).




End GeneratorEdges.

Section Zeros.

Lemma int_of_R_0 : int_of_R 0 = 0.
Proof. apply int_of_R_nonneg; [simpl; lra | lia]. Qed.

Lemma sample_at_0 (f : Q) (sample_rate : Z) : sample_at f sample_rate 0 = 0.
Proof.
  unfold sample_at, amplitude.
  replace (sin (2 * PI * Q2R f * (IZR 0 / IZR sample_rate)) * (3 / 10) * 32767)%R
    with 0%R; [apply int_of_R_0 |].
  unfold Rdiv. rewrite !Rmult_0_l, Rmult_0_r, sin_0. lra.
Qed.



End Zeros.

Section ZeroSamples.

Variables (duration frequency0 : Q) (sample_rate : Z).

(** X2. The first sample of every sequence is 0: it is taken at time 0, where
    the sine is 0 whatever the frequency. *)
Theorem first_sample_zero (s : Z) (l : list Z) :
  generate_samples duration frequency0 sample_rate = Ok (s :: l) -> s = 0.
Proof.
  intros H%generate_samples_inv. rewrite range_nrange in H.
  destruct (Z.to_nat (num_samples duration sample_rate)) as [| n];
    [discriminate |].
  change (nrange (S n)) with (0 :: map Z.of_nat (seq 1 n)) in H.
  cbn [map] in H. injection H as -> _.
  change (frequency_at frequency0 0) with frequency0. apply sample_at_0.
Qed.


End ZeroSamples.

Lemma first_sample_zero_witness :
  exists (s : Z) (l : list Z), generate_samples 1 523 8 = Ok (s :: l) /\ s = 0.
Proof.
  pose proof (generate_samples_ok 1 523 8 ltac:(lia) ltac:(discriminate))
    as Hgen.
  change (range (num_samples 1 8)) with (0 :: map Z.of_nat (seq 1 7)) in Hgen.
  cbn [map] in Hgen.
  eexists. eexists. split; [exact Hgen |].
  exact (first_sample_zero 1 523 8 _ _ Hgen).
Defined.


(** ** What the sequence depends on *)

Lemma firstn_nrange (n1 n2 : nat) :
  (n1 <= n2)%nat -> firstn n1 (nrange n2) = nrange n1.
Proof.
  intros H. unfold nrange. rewrite firstn_map. f_equal.
  replace n2 with (n1 + (n2 - n1))%nat by lia.
  rewrite seq_app, firstn_app, length_seq, Nat.sub_diag, firstn_O, app_nil_r.
  rewrite <- (length_seq n1 0) at 1. apply firstn_all.
Qed.

Section Dependence.

Variables (frequency0 : Q) (sample_rate : Z).



(** X5. The samples do not depend on the duration: with a positive sample
    rate, the sequence of a run is the beginning of the sequence of every
    run that lasts at least as long. *)
Theorem shorter_run_is_prefix (d1 d2 : Q) (l1 l2 : list Z) :
  0 < sample_rate -> (d1 <= d2)%Q ->
  generate_samples d1 frequency0 sample_rate = Ok l1 ->
  generate_samples d2 frequency0 sample_rate = Ok l2 ->
  l1 = firstn (length l1) l2.
Proof.
  intros Hsr Hd H1 H2.
  pose proof (generate_samples_length _ _ _ _ H1) as Hl1.
  pose proof (generate_samples_length _ _ _ _ H2) as Hl2.
  rewrite num_samples_floor in Hl1, Hl2.
  assert (Hmono : Qfloor (d1 * inject_Z sample_rate)
                  <= Qfloor (d2 * inject_Z sample_rate)).
  { apply Qfloor_resp_le. apply Qmult_le_compat_r; [assumption |].
    unfold Qle; simpl; lia. }
  apply generate_samples_inv in H1, H2.
  rewrite H1 at 2. rewrite length_map, range_nrange, nrange_length.
  rewrite H1, H2, !range_nrange.
  rewrite H1, length_map, range_nrange, nrange_length in Hl1.
  rewrite H2, length_map, range_nrange, nrange_length in Hl2.
  set (n1 := Z.to_nat (num_samples d1 sample_rate)) in *.
  set (n2 := Z.to_nat (num_samples d2 sample_rate)) in *.
  rewrite firstn_map, firstn_nrange by lia. reflexivity.
Qed.

End Dependence.

Lemma shorter_run_is_prefix_witness :
  exists l1 l2 : list Z,
    generate_samples (1 # 2) 440 8 = Ok l1
    /\ generate_samples 2 440 8 = Ok l2
    /\ length l1 = 4%nat /\ length l2 = 16%nat
    /\ l1 = firstn (length l1) l2.
Proof.
  pose proof (generate_samples_ok (1 # 2) 440 8 ltac:(lia) ltac:(discriminate))
    as H1.
  pose proof (generate_samples_ok 2 440 8 ltac:(lia) ltac:(discriminate))
    as H2.
  eexists. eexists. split; [exact H1 |]. split; [exact H2 |].
  split; [reflexivity |]. split; [reflexivity |].
  exact (shorter_run_is_prefix 440 8 (1 # 2) 2 _ _
           ltac:(lia) ltac:(discriminate) H1 H2).
Defined.

(** * More about the written file *)

Section ScriptOutcome.

Variables (duration frequency0 : Q) (sample_rate : Z).

Lemma generated_int16 :
  Forall int16
    (map (fun i => sample_at (frequency_at frequency0 i) sample_rate i)
         (range (num_samples duration sample_rate))).
Proof.
  apply Forall_map, Forall_forall. intros i _.
  pose proof (sample_at_bound (frequency_at frequency0 i) sample_rate i).
  unfold int16. lia.
Qed.

Lemma generated_length :
  Z.of_nat
    (length (map (fun i => sample_at (frequency_at frequency0 i) sample_rate i)
                 (range (num_samples duration sample_rate))))
  = Z.max 0 (num_samples duration sample_rate).
Proof. rewrite length_map, range_nrange, nrange_length. lia. Qed.





(** X10. The format chunk of a written file: the tags in their places, format
    tag 1 (PCM), 1 channel, the sample rate, a byte rate of twice the
    sample rate, a block align of 2 and 16 bits per sample. *)
Theorem written_file_format (content : list byte) :
  create_test_audio duration frequency0 sample_rate = Ok (Written content) ->
  firstn 4 content = RIFF
  /\ firstn 4 (skipn 8 content) = WAVE
  /\ firstn 4 (skipn 12 content) = fmt_
  /\ le_combine (firstn 4 (skipn 16 content)) = 16
  /\ le_combine (firstn 2 (skipn 20 content)) = 1
  /\ le_combine (firstn 2 (skipn 22 content)) = 1
  /\ le_combine (firstn 4 (skipn 24 content)) = sample_rate
  /\ le_combine (firstn 4 (skipn 28 content)) = 2 * sample_rate
  /\ le_combine (firstn 2 (skipn 32 content)) = 2
  /\ le_combine (firstn 2 (skipn 34 content)) = 16
  /\ firstn 4 (skipn 36 content) = data.
Proof.
  intros H. unfold create_test_audio in H.
  destruct (generate_samples duration frequency0 sample_rate)
    as [samples | e] eqn:Hgen; [| discriminate].
  cbv beta iota delta [bind] in H. injection H as H.
  apply write_wav_written_inv in H as (Hr & Hr2 & _ & Hlen & ->).
  set (n := Z.of_nat (length samples)) in *.
  repeat split; try reflexivity.
  - change (firstn 4 (skipn 24 (header sample_rate (2 * n) ++ payload samples)))
      with (le_split 4 sample_rate).
    apply le_combine_split_small.
    change (2 ^ (8 * Z.of_nat 4)) with 4294967296. lia.
  - change (firstn 4 (skipn 28 (header sample_rate (2 * n) ++ payload samples)))
      with (le_split 4 (1 * sample_rate * 2)).
    rewrite le_combine_split_small
      by (change (2 ^ (8 * Z.of_nat 4)) with 4294967296; lia).
    lia.
Qed.

End ScriptOutcome.




Lemma written_file_format_witness :
  exists content,
    create_test_audio 1 440 8000 = Ok (Written content)
    /\ le_combine (firstn 4 (skipn 24 content)) = 8000
    /\ le_combine (firstn 4 (skipn 28 content)) = 2 * 8000.
Proof.
  destruct (create_test_audio_written 1 440 8000
              ltac:(lia) ltac:(reflexivity) ltac:(reflexivity))
    as (samples & _ & Hc).
  eexists. split; [exact Hc |].
  destruct (written_file_format 1 440 8000 _ Hc)
    as (_ & _ & _ & _ & _ & _ & H1 & H2 & _).
  split; assumption.
Defined.

(** * What the script prints *)

Section Printing.

Import String.
Local Open Scope string_scope.

(** The [with] statement that keeps [packed_samples] leaves the file as
    the one that does not. *)
Lemma write_wav_binding_spec (sample_rate : Z) (samples : list Z) :
  write_wav_binding sample_rate samples
  = match write_wav sample_rate samples, pack_hs samples with
    | Written content, Ok packed => Completed content packed
    | Written content, Raise e => Aborted e content
    | Failed e content, _ => Aborted e content
    end.
Proof.
  unfold write_wav_binding, write_wav, with_open_binding, with_open.
  unfold mbind, lift, ret.
  destruct (setnchannels 1 initfp) as [[[] | e1] w1]; cycle 1.
  { destruct (close w1) as [[[] | ?] ?]; destruct (pack_hs samples); reflexivity. }
  destruct (setsampwidth 2 w1) as [[[] | e2] w2]; cycle 1.
  { destruct (close w2) as [[[] | ?] ?]; destruct (pack_hs samples); reflexivity. }
  destruct (setframerate sample_rate w2) as [[[] | e3] w3]; cycle 1.
  { destruct (close w3) as [[[] | ?] ?]; destruct (pack_hs samples); reflexivity. }
  destruct (pack_hs samples) as [packed | e4].
  - destruct (writeframes packed w3) as [[[] | e5] w4];
      destruct (close w4) as [[[] | ?] ?]; reflexivity.
  - destruct (close w3) as [[[] | ?] ?]; reflexivity.
Qed.

Lemma write_wav_binding_completed (sample_rate : Z) (samples : list Z)
      (content packed : list byte) :
  write_wav_binding sample_rate samples = Completed content packed ->
  write_wav sample_rate samples = Written content /\ packed = payload samples.
Proof.
  rewrite write_wav_binding_spec.
  destruct (write_wav sample_rate samples) as [c | e c] eqn:Hw;
    [| discriminate].
  apply write_wav_written_inv in Hw as (_ & _ & Hall & _ & _).
  rewrite pack_hs_ok by assumption. intros [= -> ->]. split; reflexivity.
Qed.

Lemma write_wav_binding_aborted (sample_rate : Z) (samples : list Z)
      (e : exn) (content : list byte) :
  write_wav_binding sample_rate samples = Aborted e content ->
  write_wav sample_rate samples = Failed e content.
Proof.
  rewrite write_wav_binding_spec.
  destruct (write_wav sample_rate samples) as [c | e' c] eqn:Hw.
  - apply write_wav_written_inv in Hw as (_ & _ & Hall & _ & _).
    rewrite pack_hs_ok by assumption. discriminate.
  - intros [= -> ->]. reflexivity.
Qed.

Variables (filename : string) (duration : Z) (frequency0 : Q) (sample_rate : Z).

(** The run with console is the run without: same exception, same file. *)
Lemma create_test_audio_run_spec :
  match create_test_audio (inject_Z duration) frequency0 sample_rate with
  | Raise e =>
      create_test_audio_run filename duration frequency0 sample_rate
      = mk_run (Some e) None []
  | Ok (Failed e content) =>
      create_test_audio_run filename duration frequency0 sample_rate
      = mk_run (Some e) (Some content) []
  | Ok (Written content) =>
      create_test_audio_run filename duration frequency0 sample_rate
      = mk_run None (Some content)
          [ "Created test audio file: " ++ filename;
            "Duration: " ++ str_int duration ++ " seconds";
            "Sample rate: " ++ str_int sample_rate ++ " Hz";
            "File size: " ++ str_int (Z.of_nat (List.length content) - 44)
              ++ " bytes" ]
  end.
Proof.
  unfold create_test_audio, create_test_audio_run.
  destruct (generate_samples (inject_Z duration) frequency0 sample_rate)
    as [samples | e]; [| reflexivity].
  cbv beta iota delta [bind].
  destruct (write_wav_binding sample_rate samples) as [content packed | e content]
    eqn:Hb.
  - apply write_wav_binding_completed in Hb as [Hw ->]. rewrite Hw.
    apply write_wav_written_inv in Hw as (_ & _ & _ & _ & ->).
    rewrite length_app, header_length.
    replace (Z.of_nat (44 + List.length (payload samples)) - 44)
      with (Z.of_nat (List.length (payload samples))) by lia.
    reflexivity.
  - apply write_wav_binding_aborted in Hb. rewrite Hb. reflexivity.
Qed.

Lemma num_samples_int : num_samples (inject_Z duration) sample_rate
                        = duration * sample_rate.
Proof.
  unfold num_samples, int_of_Q. simpl. apply Z.quot_1_r.
Qed.

(** X11. The size that the script reports in its last line is that of the
    sample data, two bytes per sample, which is 44 bytes less than the size
    of the file it has written. *)
Theorem reported_size_is_payload (content : list byte) :
  create_test_audio (inject_Z duration) frequency0 sample_rate
  = Ok (Written content) ->
  Z.of_nat (List.length content) = 44 + 2 * Z.max 0 (duration * sample_rate)
  /\ create_test_audio_run filename duration frequency0 sample_rate
     = mk_run None (Some content)
         [ "Created test audio file: " ++ filename;
           "Duration: " ++ str_int duration ++ " seconds";
           "Sample rate: " ++ str_int sample_rate ++ " Hz";
           "File size: " ++ str_int (2 * Z.max 0 (duration * sample_rate))
             ++ " bytes" ].
Proof.
  intros Hc. pose proof create_test_audio_run_spec as H. rewrite Hc in H.
  unfold create_test_audio in Hc.
  destruct (generate_samples (inject_Z duration) frequency0 sample_rate)
    as [samples | e] eqn:Hgen; [| discriminate].
  cbv beta iota delta [bind] in Hc. injection Hc as Hw.
  apply write_wav_written_inv in Hw as (_ & _ & _ & _ & Hcontent).
  assert (Hsize : Z.of_nat (List.length content)
                  = 44 + 2 * Z.max 0 (duration * sample_rate)).
  { rewrite Hcontent, length_app, payload_length, header_length.
    pose proof (generate_samples_length _ _ _ _ Hgen) as Hn.
    rewrite num_samples_int in Hn. lia. }
  split; [exact Hsize |].
  rewrite H, Hsize.
  replace (44 + 2 * Z.max 0 (duration * sample_rate) - 44)
    with (2 * Z.max 0 (duration * sample_rate)) by lia.
  reflexivity.
Qed.


End Printing.

Section PrintingExamples.

Import String.
Local Open Scope string_scope.

Lemma reported_size_is_payload_witness :
  exists content,
    create_test_audio 1 440 8 = Ok (Written content)
    /\ Z.of_nat (List.length content) = 60
    /\ create_test_audio_run "tone.wav" 1 440 8
       = mk_run None (Some content)
           [ "Created test audio file: tone.wav";
             "Duration: 1 seconds";
             "Sample rate: 8 Hz";
             "File size: 16 bytes" ].
Proof.
  destruct (create_test_audio_written (inject_Z 1) 440 8
              ltac:(lia) ltac:(reflexivity) ltac:(reflexivity))
    as (samples & _ & Hc).
  eexists. split; [exact Hc |].
  exact (reported_size_is_payload "tone.wav" 1 440 8 _ Hc).
Defined.


(** X13. The script run as a program: 60 seconds at 44100 Hz are 2646000
    samples, every one of them taken from the 440 Hz sine; the file is
    written to the end, 5292044 bytes that read back as one channel of
    16-bit samples at 44100 Hz, 2646000 frames; five lines are printed, the
    size among them being that of the data, 5292000. *)
Theorem main_run :
  exists (samples : list Z) (content : list byte),
    generate_samples 60 440 44100 = Ok samples
    /\ Z.of_nat (List.length samples) = 2646000
    /\ (forall i : Z, 0 <= i < 2646000 ->
          nth_error samples (Z.to_nat i) = Some (sample_at 440 44100 i))
    /\ main
       = mk_run None (Some content)
           [ "Created test audio file: public/sample-track.mp3";
             "Duration: 60 seconds";
             "Sample rate: 44100 Hz";
             "File size: 5292000 bytes";
             "Test audio file created successfully!" ]
    /\ Z.of_nat (List.length content) = 5292044
    /\ open_read content = Ok (mk_reader 1 2 44100 2646000 (payload samples)).
Proof.
  pose proof (generate_samples_ok (inject_Z 60) 440 44100
                ltac:(lia) ltac:(discriminate)) as Hgen.
  pose proof (generated_int16 (inject_Z 60) 440 44100) as Hall.
  pose proof (generated_length (inject_Z 60) 440 44100) as Hlen.
  assert (Hnth : forall i : Z, 0 <= i < 2646000 ->
            nth_error
              (map (fun i => sample_at (frequency_at 440 i) 44100 i)
                   (range (num_samples (inject_Z 60) 44100)))
              (Z.to_nat i)
            = Some (sample_at 440 44100 i)).
  { intros i Hi.
    rewrite nth_error_map, range_nrange, nrange_nth
      by (rewrite num_samples_int; lia).
    cbn [option_map]. rewrite Z2Nat.id by lia. f_equal. f_equal.
    unfold frequency_at. destruct (i <=? 0)%Z; reflexivity. }
  rewrite num_samples_int in Hlen.
  change (Z.max 0 (60 * 44100)) with 2646000 in Hlen.
  set (samples := map _ (range _)) in *. clearbody samples.
  assert (Hsize : Z.of_nat (List.length (header 44100 (2 * 2646000)
                                           ++ payload samples)%list)
                  = 5292044).
  { rewrite length_app, payload_length, header_length. lia. }
  assert (Hc : create_test_audio (inject_Z 60) 440 44100
               = Ok (Written (header 44100 (2 * 2646000)
                                ++ payload samples)%list)).
  { unfold create_test_audio. rewrite Hgen. cbv beta iota delta [bind].
    rewrite write_wav_ok by (assumption || lia). rewrite Hlen. reflexivity. }
  pose proof (create_test_audio_run_spec "public/sample-track.mp3" 60 440 44100)
    as Hrun.
  rewrite Hc, Hsize in Hrun.
  exists samples, (header 44100 (2 * 2646000) ++ payload samples)%list.
  split; [exact Hgen |]. split; [exact Hlen |].
  split; [exact Hnth |]. split; [| split].
  - unfold main, then_print. rewrite Hrun. reflexivity.
  - exact Hsize.
  - rewrite (open_read_written 44100 (2 * 2646000) (payload samples));
      [reflexivity | lia | lia |].
    rewrite payload_length. lia.
Qed.

End PrintingExamples.
